(** * NIP-46 remote-signing backend and NIP-04 event helpers of NDK

    A shallow embedding of [NDKNip46Backend] (handler registry, dispatcher,
    [signEvent], [pubkeyAllowed]) and of [encrypt]/[decrypt] from
    [src/events/nip04.ts].

    Promises are modelled by their outcome (resolved with a value or rejected
    with the thrown value); the mutable state that the backend can touch is a
    [World] record threaded through a state-and-exception monad. The
    collaborators that live outside these files (the RPC codec, JSON parsing,
    the permission callback, the signer) are fields of an [Env] record. *)

From stdpp Require Import base option list strings gmap.

Open Scope string_scope.

(** ** Outcomes of promises *)

Inductive JSError : Type :=
  | TypeError (msg : string)
  | SyntaxError (msg : string)
  | Error (msg : string)
  | Reason (what : string).

Inductive Outcome (A : Type) : Type :=
  | Resolved (a : A)
  | Rejected (e : JSError).
Arguments Resolved {A} a.
Arguments Rejected {A} e.

Definition is_resolved {A : Type} (o : Outcome A) : bool :=
  match o with Resolved _ => true | Rejected _ => false end.

(** ** Events, users, signers *)

(** The plain fields of an event, as [rawEvent()] returns them and as the
    signer receives them. *)
Record NostrEvent : Type := mkNostrEvent {
  raw_created_at : option Z;
  raw_content : string;
  raw_tags : list (list string);
  raw_kind : option Z;
  raw_pubkey : string;
  raw_id : string;
  raw_sig : option string
}.

Record NDKUser : Type := mkNDKUser { hexpubkey : string }.

(** An [NDKSigner]: the three operations the code calls on it. *)
Record NDKSigner : Type := mkNDKSigner {
  signer_sign : NostrEvent -> Outcome string;
  signer_encrypt : NDKUser -> string -> Outcome string;
  signer_decrypt : NDKUser -> string -> Outcome string
}.

(** An [NDK] instance: its optional signer and what [assertSigner()] does. *)
Record NDK : Type := mkNDK {
  ndk_signer : option NDKSigner;
  ndk_assertSigner : Outcome unit
}.

Record NDKEvent : Type := mkNDKEvent {
  ndk : option NDK;
  created_at : option Z;
  content : string;
  tags : list (list string);
  kind : option Z;
  pubkey : string;
  id : string;
  sig : option string
}.

(** Modelled from the spec: the [NDKEvent] constructor and [rawEvent()] are in
    index.js, which is not part of the sources; the spec treats the event
    object model as a capability over the raw fields, so the constructor
    stores the fields it is given and [rawEvent] reads them back. *)
Definition new_NDKEvent (n : option NDK) (e : NostrEvent) : NDKEvent :=
  {| ndk := n;
     created_at := raw_created_at e;
     content := raw_content e;
     tags := raw_tags e;
     kind := raw_kind e;
     pubkey := raw_pubkey e;
     id := raw_id e;
     sig := raw_sig e |}.

(** Modelled from the spec: [rawEvent()] is in index.js as well; it returns
    the event's plain fields. *)
Definition rawEvent (e : NDKEvent) : NostrEvent :=
  {| raw_created_at := created_at e;
     raw_content := content e;
     raw_tags := tags e;
     raw_kind := kind e;
     raw_pubkey := pubkey e;
     raw_id := id e;
     raw_sig := sig e |}.

Definition set_content (e : NDKEvent) (c : string) : NDKEvent :=
  {| ndk := ndk e;
     created_at := created_at e;
     content := c;
     tags := tags e;
     kind := kind e;
     pubkey := pubkey e;
     id := id e;
     sig := sig e |}.

Definition set_sig (e : NDKEvent) (s : string) : NDKEvent :=
  {| ndk := ndk e;
     created_at := created_at e;
     content := content e;
     tags := tags e;
     kind := kind e;
     pubkey := pubkey e;
     id := id e;
     sig := Some s |}.

(** ** src/events/nip04.ts *)

Module Nip04.

(** The result of an [async] method that mutates [this]: the promise's
    outcome and the event object afterwards. *)
Definition Run : Type := (Outcome unit * NDKEvent)%type.

(** Lines 6-14 and 20-28: pick the signer. [ndk.signer!] is a type-level
    assertion only, so an NDK whose [assertSigner] resolved without a
    signer yields [undefined], and the method call on it throws. *)
Definition resolveSigner (this : NDKEvent) (signer : option NDKSigner)
  : Outcome NDKSigner :=
  match signer with
  | Some s => Resolved s
  | None =>
      match ndk this with
      | None => Rejected (Error "No signer available")
      | Some n =>
          match ndk_assertSigner n with
          | Rejected e => Rejected e
          | Resolved _ =>
              match ndk_signer n with
              | Some s => Resolved s
              | None => Rejected (TypeError "Cannot read properties of undefined")
              end
          end
      end
  end.

Definition encrypt (this : NDKEvent) (recipient : NDKUser)
    (signer : option NDKSigner) : Run :=
  match resolveSigner this signer with
  | Rejected e => (Rejected e, this)
  | Resolved s =>
      match signer_encrypt s recipient (content this) with
      | Rejected e => (Rejected e, this)
      | Resolved c => (Resolved (), set_content this c)
      end
  end.

Definition decrypt (this : NDKEvent) (sender : NDKUser)
    (signer : option NDKSigner) : Run :=
  match resolveSigner this signer with
  | Rejected e => (Rejected e, this)
  | Resolved s =>
      match signer_decrypt s sender (content this) with
      | Rejected e => (Rejected e, this)
      | Resolved c => (Resolved (), set_content this c)
      end
  end.

(** Two events that differ at most in [content]. *)
Definition same_but_content (a b : NDKEvent) : Prop :=
  ndk a = ndk b /\ created_at a = created_at b /\ tags a = tags b /\
  kind a = kind b /\ pubkey a = pubkey b /\ id a = id b /\ sig a = sig b.

End Nip04.

(** ** The NIP-46 backend *)

Module Backend.

(** *** Handler objects and the [handlers] table *)

(** Strategy objects are compared by identity: the four built-in ones and
    the ones the embedding application registers. *)
Inductive StrategyRef : Type :=
  | ConnectStrategy
  | SignEventStrategy
  | GetPublicKeyStrategy
  | DescribeStrategy
  | CustomStrategy (n : nat).

(** What [this.handlers[method]] can evaluate to, as far as the dispatcher
    tells values apart: [undefined], an object with a [handle] method, or
    some other truthy value that has no callable [handle]. *)
Inductive PropertyValue : Type :=
  | PUndefined
  | PStrategy (s : StrategyRef)
  | PForeign (what : string).

(** [handlers] is an object literal, so besides the properties of its own
    it has a prototype. The prototype is [Object.prototype] ([None]) until
    an assignment to the key [__proto__] replaces it by a strategy object. *)
Record HandlersObject : Type := mkHandlers {
  own : gmap string StrategyRef;
  proto : option StrategyRef
}.

(** The property names every object inherits from [Object.prototype]. *)
Definition objectPrototypeNames : list string :=
  [ "constructor"; "hasOwnProperty"; "isPrototypeOf";
    "propertyIsEnumerable"; "toLocaleString"; "toString"; "valueOf";
    "__defineGetter__"; "__defineSetter__"; "__lookupGetter__";
    "__lookupSetter__" ].

Definition inherited (name : string) : bool :=
  bool_decide (name ∈ objectPrototypeNames).

(** Lines 60-65. *)
Definition initialHandlers : HandlersObject :=
  {| own := <["connect" := ConnectStrategy]>
            (<["sign_event" := SignEventStrategy]>
            (<["get_public_key" := GetPublicKeyStrategy]>
            (<["describe" := DescribeStrategy]> ∅)));
     proto := None |}.

(** A property key: [undefined] used as a key is the string "undefined". *)
Definition property_key (method : option string) : string :=
  default "undefined" method.

(** *** Messages, log entries, the mutable world *)

(** What [rpc.parseEvent] hands to the dispatcher: any of the three
    destructured fields may be [undefined]. *)
Record RpcMessage : Type := mkRpcMessage {
  rpc_id : option string;
  rpc_method : option string;
  rpc_params : option (list string)
}.

(** One call of [rpc.sendResponse(id, remotePubkey, response)]. *)
Record Response : Type := mkResponse {
  response_id : option string;
  response_to : string;
  response_result : string
}.

(** The calls of [this.debug]. *)
Inductive DebugEntry : Type :=
  | DbgIncomingEvent (msg : RpcMessage)
  | DbgUnsupportedMethod (method : option string) (params : option (list string))
  | DbgSendingResponse (remotePubkey response : string)
  | DbgSignEventRequest (remotePubkey : string)
  | DbgEventToSign (e : NostrEvent)
  | DbgSignEventRejected (remotePubkey : string)
  | DbgSignEventAllowed (remotePubkey : string).

Record World : Type := mkWorld {
  handlers : HandlersObject;
  debugLog : list DebugEntry;
  published : list Response;
  gateQueries : list (string * string);
  signCalls : nat
}.

Definition initialWorld : World :=
  {| handlers := initialHandlers; debugLog := []; published := [];
     gateQueries := []; signCalls := 0 |}.

(** *** The monad of [async] methods *)

Definition M (A : Type) : Type := World -> Outcome A * World.

Definition ret {A : Type} (a : A) : M A := fun w => (Resolved a, w).

Definition throw {A : Type} (e : JSError) : M A := fun w => (Rejected e, w).

Definition bind {A B : Type} (m : M A) (k : A -> M B) : M B :=
  fun w =>
    match m w with
    | (Resolved a, w') => k a w'
    | (Rejected e, w') => (Rejected e, w')
    end.

(** [await p] for a promise whose outcome is known. *)
Definition await {A : Type} (o : Outcome A) : M A := fun w => (o, w).

Definition gets {A : Type} (f : World -> A) : M A := fun w => (Resolved (f w), w).

Definition modify (f : World -> World) : M unit := fun w => (Resolved (), f w).

Declare Scope async_scope.
Delimit Scope async_scope with async.
Notation "'let!' x ':=' m 'in' k" := (bind m (fun x => k))
  (at level 10, x pattern, m at level 100, k at level 200) : async_scope.
Notation "'do!' m 'in' k" := (bind m (fun _ => k))
  (at level 10, m at level 100, k at level 200) : async_scope.
Open Scope async_scope.

(** The updates of the world, one per kind of effect. *)
Definition logged (d : DebugEntry) (w : World) : World :=
  {| handlers := handlers w; debugLog := debugLog w ++ [d];
     published := published w; gateQueries := gateQueries w;
     signCalls := signCalls w |}.

Definition responded (r : Response) (w : World) : World :=
  {| handlers := handlers w; debugLog := debugLog w;
     published := published w ++ [r]; gateQueries := gateQueries w;
     signCalls := signCalls w |}.

Definition queried (pk method : string) (w : World) : World :=
  {| handlers := handlers w; debugLog := debugLog w;
     published := published w;
     gateQueries := gateQueries w ++ [(pk, method)];
     signCalls := signCalls w |}.

Definition signedOnce (w : World) : World :=
  {| handlers := handlers w; debugLog := debugLog w;
     published := published w; gateQueries := gateQueries w;
     signCalls := S (signCalls w) |}.

Definition withHandlers (h : HandlersObject) (w : World) : World :=
  {| handlers := h; debugLog := debugLog w; published := published w;
     gateQueries := gateQueries w; signCalls := signCalls w |}.

(** [this.debug(...)]. *)
Definition debug (d : DebugEntry) : M unit := modify (logged d).

(** [this.rpc.sendResponse(id, remotePubkey, response)]: the call is not
    awaited, the dispatcher only hands the response over. *)
Definition sendResponse (i : option string) (remotePubkey response : string)
  : M unit :=
  modify (responded (mkResponse i remotePubkey response)).

Definition recordGateQuery (pk method : string) : M unit :=
  modify (queried pk method).

Definition recordSignCall : M unit := modify signedOnce.

Definition setHandlers (h : HandlersObject) : M unit :=
  modify (withHandlers h).

(** *** Collaborators *)

Record Env : Type := mkEnv {
  (** [this.rpc.parseEvent], from rpc.js: decrypts and parses. *)
  parseEvent : NDKEvent -> Outcome RpcMessage;
  (** [JSON.parse] followed by reading the event fields; [None] when
      [JSON.parse] throws. *)
  JSON_parse : string -> option NostrEvent;
  (** The [Nip46PermitCallback] given to the constructor: the outcome of
      the query made while one message is handled. A callback that answers
      differently at another time is another [Env] for that handling. *)
  permitCallback : string -> string -> NDKEvent -> Outcome bool;
  (** [this.ndk] and [this.signer]. *)
  backend_ndk : NDK;
  backend_signer : NDKSigner;
  (** [this.localUser.hexpubkey()]. *)
  localPubkey : string;
  (** [JSON.stringify] of a signed event and of the method names. *)
  stringifyEvent : NDKEvent -> string;
  stringifyNames : gmap string StrategyRef -> string;
  (** [handle] of the strategy objects the application registers. *)
  custom_handle : nat -> string -> option (list string) -> M (option string);
  (** What a property lookup that has reached a strategy object (as the
      prototype of [handlers]) evaluates to. *)
  strategy_member : StrategyRef -> string -> PropertyValue
}.

(** *** The operations of [NDKNip46Backend] *)

Section Operations.

Variable env : Env.

(** [this.handlers[method]]: the object's own property if there is one,
    otherwise what the prototype chain gives. The accessor [__proto__]
    of [Object.prototype] returns the prototype itself. *)
Definition handlers_get (h : HandlersObject) (key : string) : PropertyValue :=
  match own h !! key with
  | Some s => PStrategy s
  | None =>
      match proto h with
      | None =>
          if bool_decide (key = "__proto__") then PForeign "Object.prototype"
          else if inherited key then PForeign key
          else PUndefined
      | Some s =>
          if bool_decide (key = "__proto__") then PStrategy s
          else strategy_member env s key
      end
  end.

(** [this.handlers[method] = strategy]: an assignment to [__proto__]
    runs the inherited setter, which replaces the prototype; any other
    key becomes (or overwrites) a property of the object itself. Strategy
    objects are taken to be ordinary objects: their own chain ends in
    [Object.prototype] and they define no accessors or read-only
    properties that an assignment to [handlers] could run into. *)
Definition handlers_set (h : HandlersObject) (key : string) (s : StrategyRef)
  : HandlersObject :=
  if bool_decide (key = "__proto__")
  then {| own := own h; proto := Some s |}
  else {| own := <[key := s]> (own h); proto := proto h |}.

(** Lines 72-74. *)
Definition setStrategy (method : string) (strategy : StrategyRef) : M unit :=
  let! h := gets handlers in
  setHandlers (handlers_set h method strategy).

(** Lines 120-122. *)
Definition pubkeyAllowed (pk method : string) (params : NDKEvent) : M bool :=
  do! recordGateQuery pk method in
  await (permitCallback env pk method params).

(** Modelled from the spec: [NDKEvent.sign] is in index.js, which is not
    part of the sources. By the Local Signer's contract the signer is
    given the event's fields, may fail on them, and otherwise the event
    carries the signature next to the fields it had. *)
Definition event_sign (e : NDKEvent) (signer : NDKSigner) : M NDKEvent :=
  do! recordSignCall in
  let! s := await (signer_sign signer (rawEvent e)) in
  ret (set_sig e s).

(** [const [ eventString ] = params]: destructuring [undefined] throws,
    an empty array gives [undefined]. *)
Definition firstParam (params : option (list string)) : M (option string) :=
  match params with
  | None => throw (TypeError "undefined is not iterable")
  | Some l => ret (head l)
  end.

(** [new NDKEvent(this.ndk, JSON.parse(eventString))]; an [undefined]
    argument of [JSON.parse] is read as the text "undefined". *)
Definition parseEventString (eventString : option string) : M NDKEvent :=
  match JSON_parse env (default "undefined" eventString) with
  | None => throw (SyntaxError "Unexpected token in JSON")
  | Some fields => ret (new_NDKEvent (Some (backend_ndk env)) fields)
  end.

(** Lines 96-114. *)
Definition signEvent (remotePubkey : string) (params : option (list string))
  : M (option NDKEvent) :=
  let! eventString := firstParam params in
  do! debug (DbgSignEventRequest remotePubkey) in
  let! event := parseEventString eventString in
  do! debug (DbgEventToSign (rawEvent event)) in
  let! allowed := pubkeyAllowed remotePubkey "sign_event" event in
  if negb allowed then
    do! debug (DbgSignEventRejected remotePubkey) in
    ret None
  else
    do! debug (DbgSignEventAllowed remotePubkey) in
    let! signed := event_sign event (backend_signer env) in
    ret (Some signed).

(** Modelled from the spec: connect.js is not part of the sources. The
    connect handler always produces the fixed acknowledgment and does not
    consult the Permission Gate. *)
Definition connect_handle : M (option string) := ret (Some "ack").

(** Modelled from the spec: get-public-key.js is not part of the sources.
    The handler returns the local identity's public key,
    unconditionally. *)
Definition get_public_key_handle : M (option string) :=
  ret (Some (localPubkey env)).

(** Modelled from the spec: describe.js is not part of the sources. The
    handler returns an enumeration of the registered method names. *)
Definition describe_handle : M (option string) :=
  let! h := gets handlers in
  ret (Some (stringifyNames env (own h))).

(** Modelled from the spec: sign-event.js is not part of the sources. The
    handler runs the backend's [signEvent] (which is in the sources);
    a denied request gives an absent result, an allowed one the
    serialized signed event. *)
Definition sign_event_handle (remotePubkey : string)
    (params : option (list string)) : M (option string) :=
  let! event := signEvent remotePubkey params in
  match event with
  | None => ret None
  | Some e => ret (Some (stringifyEvent env e))
  end.

(** [strategy.handle(this, remotePubkey, params)]. *)
Definition handle (s : StrategyRef) (remotePubkey : string)
    (params : option (list string)) : M (option string) :=
  match s with
  | ConnectStrategy => connect_handle
  | SignEventStrategy => sign_event_handle remotePubkey params
  | GetPublicKeyStrategy => get_public_key_handle
  | DescribeStrategy => describe_handle
  | CustomStrategy n => custom_handle env n remotePubkey params
  end.

(** [if (response)]: [undefined] and the empty string are falsy. *)
Definition truthy (response : option string) : bool :=
  match response with
  | Some r => negb (String.eqb r "")
  | None => false
  end.

(** Lines 83-88: the value found under the method's name is called as a
    strategy when it is truthy; a truthy value without a [handle]
    function makes the call throw. *)
Definition dispatch (msg : RpcMessage) (remotePubkey : string)
  : M (option string) :=
  let! strategy :=
    gets (fun w => handlers_get (handlers w) (property_key (rpc_method msg))) in
  match strategy with
  | PStrategy s => handle s remotePubkey (rpc_params msg)
  | PForeign _ => throw (TypeError "strategy.handle is not a function")
  | PUndefined =>
      do! debug (DbgUnsupportedMethod (rpc_method msg) (rpc_params msg)) in
      ret None
  end.

(** Lines 76-94. *)
Definition handleIncomingEvent (event : NDKEvent) : M unit :=
  let! msg := await (parseEvent env event) in
  let remotePubkey := pubkey event in
  do! debug (DbgIncomingEvent msg) in
  let! response := dispatch msg remotePubkey in
  if truthy response then
    do! debug (DbgSendingResponse remotePubkey (default "" response)) in
    sendResponse (rpc_id msg) remotePubkey (default "" response)
  else ret ().

End Operations.

End Backend.

(** ** Concrete collaborators and requests *)

Module Examples.
Import Backend.

Definition plainEvent (from i c : string) (t : list (list string)) : NDKEvent :=
  {| ndk := None; created_at := Some 1700000000%Z; content := c; tags := t;
     kind := Some 24133%Z; pubkey := from; id := i; sig := None |}.

Definition sampleSigner : NDKSigner :=
  {| signer_sign := fun e =>
       if String.eqb (raw_content e) "" then Rejected (Error "malformed event")
       else Resolved ("sig:" ++ raw_content e);
     signer_encrypt := fun u c => Resolved ("enc(" ++ hexpubkey u ++ "," ++ c ++ ")");
     signer_decrypt := fun u c => Resolved ("dec(" ++ hexpubkey u ++ "," ++ c ++ ")") |}.

Definition sampleNDK : NDK :=
  {| ndk_signer := Some sampleSigner; ndk_assertSigner := Resolved () |}.

(** A toy codec: the content of the transport message names the method,
    its first tag carries the parameters, and its id is the request id. *)
Definition sampleParseEvent (e : NDKEvent) : Outcome RpcMessage :=
  if String.eqb (content e) "garbage"
  then Rejected (Error "decryption failed")
  else Resolved {| rpc_id := Some (id e);
                   rpc_method := Some (content e);
                   rpc_params := Some (default [] (head (tags e))) |}.

Definition sampleJSONParse (s : string) : option NostrEvent :=
  if String.eqb s "undefined" || String.eqb s "{not json"
  then None
  else Some {| raw_created_at := Some 1700000001%Z; raw_content := s;
               raw_tags := []; raw_kind := Some 1%Z; raw_pubkey := "";
               raw_id := ""; raw_sig := None |}.

(** alice is allowed, mallory makes the callback fail, all others are
    denied. *)
Definition samplePermit (pk method : string) (e : NDKEvent) : Outcome bool :=
  if String.eqb pk "alice" then Resolved true
  else if String.eqb pk "mallory" then Rejected (Reason "prompt failed")
  else Resolved false.

Definition sampleCustomHandle (n : nat) (pk : string)
    (params : option (list string)) : M (option string) :=
  match n with
  | 0 => ret (Some "")
  | 1 => ret None
  | _ => ret (Some "custom")
  end.

Definition env0 : Env :=
  {| parseEvent := sampleParseEvent;
     JSON_parse := sampleJSONParse;
     permitCallback := samplePermit;
     backend_ndk := sampleNDK;
     backend_signer := sampleSigner;
     localPubkey := "79be667ef9dcbbac55a06295ce870b07029bfcdb2dce28d959f2815b16f81798";
     stringifyEvent := fun e => content e ++ "|" ++ default "" (sig e);
     stringifyNames := fun m => "[]";
     custom_handle := sampleCustomHandle;
     strategy_member := fun _ _ => PUndefined |}.

Definition getPublicKeyRequest : NDKEvent :=
  plainEvent "bob" "1" "get_public_key" [[]].

Definition signRequest (from : string) : NDKEvent :=
  plainEvent from "2" "sign_event" [["hi"]].


Definition garbageMessage : NDKEvent := plainEvent "eve" "4" "garbage" [].

Definition unknownOpRequest : NDKEvent := plainEvent "bob" "5" "unknown-op" [[]].

Definition constructorRequest : NDKEvent :=
  plainEvent "bob" "6" "constructor" [[]].

Definition emptyResultRequest : NDKEvent := plainEvent "bob" "7" "empty" [[]].

(** The world after the application registered its strategy number 0 under
    the name "empty". *)
Definition worldWithEmpty : World :=
  (setStrategy "empty" (CustomStrategy 0) initialWorld).2.

End Examples.

(** ** Vocabulary of the properties *)

Module Properties.
Import Backend.

(** The same backend with another permission callback. *)
Definition withPermit (env : Env)
    (g : string -> string -> NDKEvent -> Outcome bool) : Env :=
  {| parseEvent := parseEvent env;
     JSON_parse := JSON_parse env;
     permitCallback := g;
     backend_ndk := backend_ndk env;
     backend_signer := backend_signer env;
     localPubkey := localPubkey env;
     stringifyEvent := stringifyEvent env;
     stringifyNames := stringifyNames env;
     custom_handle := custom_handle env;
     strategy_member := strategy_member env |}.

Definition denyAll (pk method : string) (e : NDKEvent) : Outcome bool :=
  Resolved false.

(** A strategy of a non-gated method: on every request it resolves with a
    present result and neither asks the gate nor publishes by itself. *)
Definition answers_without_gate (env : Env) (s : StrategyRef) : Prop :=
  forall pk params w, exists r w',
    handle env s pk params w = (Resolved (Some r), w') /\ r ≠ "" /\
    gateQueries w' = gateQueries w /\ published w' = published w.

(** "Logged and dropped, no response, no crash": the handling resolves,
    publishes nothing and leaves a trace in the debug log. *)
Definition logged_and_dropped (env : Env) (event : NDKEvent) (w : World) : Prop :=
  is_resolved (handleIncomingEvent env event w).1 = true /\
  published (handleIncomingEvent env event w).2 = published w /\
  debugLog (handleIncomingEvent env event w).2 ≠ debugLog w.


(** The strategy resolved with a result that the dispatcher will send. *)
Definition truthy_result (o : Outcome (option string)) : bool :=
  match o with
  | Resolved r => truthy r
  | Rejected _ => false
  end.

(** A handlers object as the code can build it: [__proto__] is never a
    property of the object itself. *)
Definition ordinary (h : HandlersObject) : Prop := own h !! "__proto__" = None.

End Properties.

(** ** Starting the backend *)

Module Lifecycle.

(** The filter and the options of [ndk.subscribe]. *)
Record Filter : Type := mkFilter {
  filter_kinds : list Z;
  filter_p : list string
}.

(** What is attached to a subscription with [sub.on('event', ...)]. *)
Inductive Listener : Type :=
  | CallHandleIncomingEvent.

Record Subscription : Type := mkSubscription {
  sub_filter : Filter;
  sub_closeOnEose : bool;
  sub_listeners : list Listener
}.

(** The part of the backend that [start] writes: [this.localUser] and the
    subscriptions it has opened on [this.ndk]. *)
Record Running : Type := mkRunning {
  localUser : option NDKUser;
  subscriptions : list Subscription
}.

Definition notStarted : Running :=
  {| localUser := None; subscriptions := [] |}.

(** Lines 49-58. [signerUser] is the outcome of [this.signer.user()]. *)
Definition start (signerUser : Outcome NDKUser) (b : Running)
  : Outcome unit * Running :=
  match signerUser with
  | Rejected e => (Rejected e, b)
  | Resolved u =>
      (Resolved (),
       {| localUser := Some u;
          subscriptions :=
            subscriptions b ++
            [ {| sub_filter := {| filter_kinds := [24133%Z];
                                  filter_p := [hexpubkey u] |};
                 sub_closeOnEose := false;
                 sub_listeners := [CallHandleIncomingEvent] |} ] |})
  end.

(** [start] called once for each of the given outcomes of
    [this.signer.user()], in order. *)
Definition startAll (calls : list (Outcome NDKUser)) (b : Running) : Running :=
  foldl (fun acc o => (start o acc).2) b calls.

(** The subscription that [start] opens for a user. *)
Definition backendSubscription (u : NDKUser) : Subscription :=
  {| sub_filter := {| filter_kinds := [24133%Z]; filter_p := [hexpubkey u] |};
     sub_closeOnEose := false;
     sub_listeners := [CallHandleIncomingEvent] |}.

(** The users of the calls that resolved. *)
Definition resolvedUsers (calls : list (Outcome NDKUser)) : list NDKUser :=
  omap (fun o => match o with Resolved u => Some u | Rejected _ => None end) calls.

End Lifecycle.

(** ** Further vocabulary and sample data *)

Module Frames.
Import Backend.

(** A world to which log entries, responses and gate queries were appended
    and in which the signer was called [n] more times. *)
Definition extend (L : list DebugEntry) (D : list Response)
    (G : list (string * string)) (n : nat) (w : World) : World :=
  {| handlers := handlers w;
     debugLog := debugLog w ++ L;
     published := published w ++ D;
     gateQueries := gateQueries w ++ G;
     signCalls := n + signCalls w |}.

(** The value found under a name is not one of the application's own
    strategies. *)
Definition not_custom (v : PropertyValue) : Prop :=
  forall n, v ≠ PStrategy (CustomStrategy n).

(** A signer whose [decrypt] undoes its [encrypt]. *)
Definition markingSigner : NDKSigner :=
  {| signer_sign := fun e => Resolved "sig";
     signer_encrypt := fun u c => Resolved ("#" ++ c);
     signer_decrypt := fun u c =>
       if String.prefix "#" c
       then Resolved (String.substring 1 (String.length c - 1) c)
       else Rejected (Error "bad ciphertext") |}.

(** An NDK instance whose [assertSigner] rejects. *)
Definition signerlessNDK : NDK :=
  {| ndk_signer := None; ndk_assertSigner := Rejected (Error "Signer required") |}.

(** A codec whose messages carry neither a parameter list nor, when the
    content is empty, a method. *)
Definition bareParseEvent (e : NDKEvent) : Outcome RpcMessage :=
  Resolved {| rpc_id := Some (id e);
              rpc_method := if String.eqb (content e) "" then None
                            else Some (content e);
              rpc_params := None |}.

Definition envBare : Env :=
  {| parseEvent := bareParseEvent;
     JSON_parse := JSON_parse Examples.env0;
     permitCallback := permitCallback Examples.env0;
     backend_ndk := backend_ndk Examples.env0;
     backend_signer := backend_signer Examples.env0;
     localPubkey := localPubkey Examples.env0;
     stringifyEvent := stringifyEvent Examples.env0;
     stringifyNames := stringifyNames Examples.env0;
     custom_handle := custom_handle Examples.env0;
     strategy_member := strategy_member Examples.env0 |}.


End Frames.

Import Backend Examples Properties.

(** ** Properties of the handler table *)

Lemma initialHandlers_ordinary : ordinary initialHandlers.
Proof. reflexivity. Qed.

Lemma handlers_set_ordinary h key s :
  ordinary h -> ordinary (handlers_set h key s).
Proof.
  unfold ordinary, handlers_set. intros Hh.
  case_bool_decide as Hk; simpl; [done|].
  by rewrite lookup_insert_ne.
Qed.

(** Registering and then resolving a name gives the registered strategy. *)
Lemma resolve_after_register env h key s :
  ordinary h -> handlers_get env (handlers_set h key s) key = PStrategy s.
Proof.
  unfold ordinary, handlers_get, handlers_set. intros Hh.
  case_bool_decide as Hk; simpl.
  - subst key. by rewrite Hh.
  - by rewrite lookup_insert_eq.
Qed.

(** The last registration wins. *)
Lemma last_registration_wins env h key s1 s2 :
  ordinary h ->
  handlers_get env (handlers_set (handlers_set h key s1) key s2) key = PStrategy s2.
Proof.
  intros Hh. apply resolve_after_register. by apply handlers_set_ordinary.
Qed.

(** Other own properties are not affected by a registration. *)
Lemma register_other_name h key key' s :
  key ≠ key' -> own (handlers_set h key s) !! key' = own h !! key'.
Proof.
  intros Hne. unfold handlers_set.
  case_bool_decide; simpl; [done|]. by rewrite lookup_insert_ne.
Qed.

(** A name that is neither registered nor inherited resolves to
    [undefined]. *)
Lemma resolve_plain_unregistered env h key :
  own h !! key = None -> proto h = None ->
  key ≠ "__proto__" -> inherited key = false ->
  handlers_get env h key = PUndefined.
Proof.
  intros Hown Hproto Hk Hinh. unfold handlers_get.
  rewrite Hown, Hproto. rewrite bool_decide_eq_false_2 by done.
  by rewrite Hinh.
Qed.

(** [setStrategy] never fails and touches nothing but the table. *)
Lemma setStrategy_run method s w :
  setStrategy method s w =
    (Resolved (), withHandlers (handlers_set (handlers w) method s) w).
Proof. reflexivity. Qed.

(** C8. A name that was never registered but that every object inherits from
    [Object.prototype] does not resolve to none: the lookup finds the
    inherited value. *)
Theorem unregistered_inherited_name_resolves env h name :
  own h !! name = None -> proto h = None -> inherited name = true ->
  handlers_get env h name ≠ PUndefined.
Proof.
  intros Hown Hproto Hinh. unfold handlers_get.
  rewrite Hown, Hproto, Hinh. by case_bool_decide.
Qed.

Lemma unregistered_inherited_name_resolves_witness :
  own initialHandlers !! "constructor" = None /\
  handlers_get env0 initialHandlers "constructor" ≠ PUndefined.
Proof.
  split; [reflexivity|].
  apply (unregistered_inherited_name_resolves env0 initialHandlers "constructor");
    reflexivity.
Defined.

(** ** Properties of the dispatcher *)

Lemma rawEvent_new_NDKEvent n fields : rawEvent (new_NDKEvent n fields) = fields.
Proof. by destruct fields. Qed.

(** What the dispatcher does after the strategy has produced its result. *)
Lemma handleIncomingEvent_after_dispatch env event msg w :
  parseEvent env event = Resolved msg ->
  handleIncomingEvent env event w =
    match dispatch env msg (pubkey event) (logged (DbgIncomingEvent msg) w) with
    | (Resolved response, w1) =>
        if truthy response
        then (Resolved (),
              responded (mkResponse (rpc_id msg) (pubkey event) (default "" response))
                (logged (DbgSendingResponse (pubkey event) (default "" response)) w1))
        else (Resolved (), w1)
    | (Rejected e, w1) => (Rejected e, w1)
    end.
Proof.
  intros Hparse. unfold handleIncomingEvent, bind, await. rewrite Hparse. simpl.
  destruct (dispatch env msg (pubkey event) _) as [[response|e] w1]; [|done].
  by destruct (truthy response).
Qed.

(** A registered name is dispatched to its strategy. *)
Lemma dispatch_registered env msg pk s w :
  handlers_get env (handlers w) (property_key (rpc_method msg)) = PStrategy s ->
  dispatch env msg pk w = handle env s pk (rpc_params msg) w.
Proof. intros Hget. unfold dispatch, bind, gets. by rewrite Hget. Qed.

Lemma handlers_get_own env h key s :
  own h !! key = Some s -> handlers_get env h key = PStrategy s.
Proof. intros Hown. unfold handlers_get. by rewrite Hown. Qed.

Ltac unfold_signEvent :=
  unfold signEvent, firstParam, parseEventString, pubkeyAllowed, event_sign,
    bind, await, throw, ret.

(** [signEvent] publishes nothing by itself, whatever happens. *)
Lemma signEvent_publishes_nothing env pk params w :
  published (signEvent env pk params w).2 = published w.
Proof.
  unfold_signEvent.
  destruct params as [l|]; simpl; [|done].
  destruct (JSON_parse env _) as [fields|]; simpl; [|done].
  destruct (permitCallback env _ _ _) as [[|]|e]; simpl; [|done|done].
  by destruct (signer_sign _ _).
Qed.

(** A sign-event request whose payload parses is taken as far as the gate:
    what the handling does next is decided by the callback's answer for the
    parsed event. *)
Lemma sign_event_request_up_to_gate env event msg l fields w :
  parseEvent env event = Resolved msg ->
  rpc_method msg = Some "sign_event" ->
  own (handlers w) !! "sign_event" = Some SignEventStrategy ->
  rpc_params msg = Some l ->
  JSON_parse env (default "undefined" (head l)) = Some fields ->
  handleIncomingEvent env event w =
    match permitCallback env (pubkey event) "sign_event"
            (new_NDKEvent (Some (backend_ndk env)) fields) with
    | Resolved false =>
        (Resolved (),
         logged (DbgSignEventRejected (pubkey event))
           (queried (pubkey event) "sign_event"
              (logged (DbgEventToSign fields)
                 (logged (DbgSignEventRequest (pubkey event))
                    (logged (DbgIncomingEvent msg) w)))))
    | Rejected err =>
        (Rejected err,
         queried (pubkey event) "sign_event"
           (logged (DbgEventToSign fields)
              (logged (DbgSignEventRequest (pubkey event))
                 (logged (DbgIncomingEvent msg) w))))
    | Resolved true => handleIncomingEvent env event w
    end.
Proof.
  intros Hparse Hmethod Hown Hparams Hjson.
  destruct (permitCallback env (pubkey event) "sign_event"
              (new_NDKEvent (Some (backend_ndk env)) fields))
    as [[|]|err] eqn:Hgate; [done| |].
  - rewrite (handleIncomingEvent_after_dispatch env event msg w Hparse).
    rewrite (dispatch_registered env msg (pubkey event) SignEventStrategy);
      [|rewrite Hmethod; by apply handlers_get_own].
    simpl handle. rewrite Hparams.
    unfold sign_event_handle. unfold_signEvent.
    simpl. rewrite Hjson. simpl. rewrite Hgate. simpl.
    by rewrite rawEvent_new_NDKEvent.
  - rewrite (handleIncomingEvent_after_dispatch env event msg w Hparse).
    rewrite (dispatch_registered env msg (pubkey event) SignEventStrategy);
      [|rewrite Hmethod; by apply handlers_get_own].
    simpl handle. rewrite Hparams.
    unfold sign_event_handle. unfold_signEvent.
    simpl. rewrite Hjson. simpl. rewrite Hgate. simpl.
    by rewrite rawEvent_new_NDKEvent.
Qed.

(** C1. For every sign-event request for which the Permission Gate, asked
    about the event parsed from the request, returns false, the handling
    resolves after logging the rejection; the dispatcher publishes no
    response and the Local Signer's sign operation is not invoked. *)
Theorem denied_sign_event_is_silent env event msg l fields w :
  parseEvent env event = Resolved msg ->
  rpc_method msg = Some "sign_event" ->
  own (handlers w) !! "sign_event" = Some SignEventStrategy ->
  rpc_params msg = Some l ->
  JSON_parse env (default "undefined" (head l)) = Some fields ->
  permitCallback env (pubkey event) "sign_event"
    (new_NDKEvent (Some (backend_ndk env)) fields) = Resolved false ->
  handleIncomingEvent env event w =
    (Resolved (),
     logged (DbgSignEventRejected (pubkey event))
       (queried (pubkey event) "sign_event"
          (logged (DbgEventToSign fields)
             (logged (DbgSignEventRequest (pubkey event))
                (logged (DbgIncomingEvent msg) w))))) /\
  published (handleIncomingEvent env event w).2 = published w /\
  signCalls (handleIncomingEvent env event w).2 = signCalls w.
Proof.
  intros Hparse Hmethod Hown Hparams Hjson Hgate.
  rewrite (sign_event_request_up_to_gate env event msg l fields w
             Hparse Hmethod Hown Hparams Hjson).
  by rewrite Hgate.
Qed.

Lemma denied_sign_event_is_silent_witness :
  published (handleIncomingEvent env0 (signRequest "bob") initialWorld).2 = [] /\
  signCalls (handleIncomingEvent env0 (signRequest "bob") initialWorld).2 = 0.
Proof.
  apply (denied_sign_event_is_silent env0 (signRequest "bob")
           (mkRpcMessage (Some "2") (Some "sign_event") (Some ["hi"])) ["hi"]
           (mkNostrEvent (Some 1700000001%Z) "hi" [] (Some 1%Z) "" "" None)
           initialWorld);
    reflexivity.
Defined.




(** C3. For every sign-event request whose single parameter parses into
    event fields that the signer accepts and for which the Permission Gate
    returns true, the handler invokes the signer once and resolves with the
    serialized signed event; that event carries the signature and its other
    fields are the input's. *)
Theorem allowed_sign_event_returns_signed env pk eventString fields sg w :
  JSON_parse env eventString = Some fields ->
  permitCallback env pk "sign_event"
    (new_NDKEvent (Some (backend_ndk env)) fields) = Resolved true ->
  signer_sign (backend_signer env) fields = Resolved sg ->
  exists signed w',
    signEvent env pk (Some [eventString]) w = (Resolved (Some signed), w') /\
    sign_event_handle env pk (Some [eventString]) w
      = (Resolved (Some (stringifyEvent env signed)), w') /\
    signCalls w' = S (signCalls w) /\
    sig signed = Some sg /\
    created_at signed = raw_created_at fields /\
    content signed = raw_content fields /\
    tags signed = raw_tags fields /\
    kind signed = raw_kind fields /\
    pubkey signed = raw_pubkey fields /\
    id signed = raw_id fields.
Proof.
  intros Hparse Hgate Hsign.
  eexists (set_sig (new_NDKEvent (Some (backend_ndk env)) fields) sg), _.
  assert (signEvent env pk (Some [eventString]) w =
            (Resolved (Some (set_sig (new_NDKEvent (Some (backend_ndk env)) fields) sg)),
             signedOnce (logged (DbgSignEventAllowed pk)
               (queried pk "sign_event"
                 (logged (DbgEventToSign fields)
                   (logged (DbgSignEventRequest pk) w)))))) as Hrun.
  { unfold_signEvent.
    simpl. rewrite Hparse. simpl. rewrite Hgate. simpl.
    rewrite rawEvent_new_NDKEvent, Hsign. done. }
  split; [exact Hrun|].
  split; [unfold sign_event_handle, bind; by rewrite Hrun|].
  done.
Qed.

Lemma allowed_sign_event_returns_signed_witness :
  exists signed w',
    sign_event_handle env0 "alice" (Some ["hi"]) initialWorld
      = (Resolved (Some (stringifyEvent env0 signed)), w') /\
    signCalls w' = 1 /\ sig signed = Some "sig:hi" /\ content signed = "hi".
Proof.
  destruct (allowed_sign_event_returns_signed env0 "alice" "hi"
              (mkNostrEvent (Some 1700000001%Z) "hi" [] (Some 1%Z) "" "" None)
              "sig:hi" initialWorld eq_refl eq_refl eq_refl)
    as (signed & w' & _ & Hhandle & Hcalls & Hsig & _ & Hcontent & _).
  exists signed, w'. auto.
Defined.

(** The claim of C4 as it is written fails on a message that cannot be
    decoded: the handling rejects, and nothing is written to the debug log. *)
Lemma decode_failure_not_logged_and_dropped :
  is_resolved (parseEvent env0 garbageMessage) = false /\
  ~ logged_and_dropped env0 garbageMessage initialWorld.
Proof.
  split; [reflexivity|].
  unfold logged_and_dropped. intros (Hresolved & _ & _).
  vm_compute in Hresolved. discriminate.
Qed.

(** C4 (amended). For every inbound transport message whose decoding fails,
    the rejection of [parseEvent] leaves [handleIncomingEvent] as it is: no
    response is sent, no strategy runs, and the dispatcher writes nothing to
    the debug log. *)
Theorem decode_failure_propagates env event err w :
  parseEvent env event = Rejected err ->
  handleIncomingEvent env event w = (Rejected err, w).
Proof.
  intros Hparse. unfold handleIncomingEvent, bind, await. by rewrite Hparse.
Qed.

Lemma decode_failure_propagates_witness :
  handleIncomingEvent env0 garbageMessage initialWorld
    = (Rejected (Error "decryption failed"), initialWorld).
Proof.
  apply (decode_failure_propagates env0 garbageMessage
           (Error "decryption failed") initialWorld).
  reflexivity.
Defined.




(** A method whose name resolves to [undefined] is logged as unsupported and
    dropped: the handling resolves and nothing is published. *)
Lemma unsupported_method_dropped env event msg w :
  parseEvent env event = Resolved msg ->
  handlers_get env (handlers w) (property_key (rpc_method msg)) = PUndefined ->
  handleIncomingEvent env event w =
    (Resolved (),
     logged (DbgUnsupportedMethod (rpc_method msg) (rpc_params msg))
       (logged (DbgIncomingEvent msg) w)).
Proof.
  intros Hparse Hget.
  rewrite (handleIncomingEvent_after_dispatch env event msg w Hparse).
  unfold dispatch, bind, gets. simpl. by rewrite Hget.
Qed.

Lemma unknown_op_dropped :
  handleIncomingEvent env0 unknownOpRequest initialWorld =
    (Resolved (),
     logged (DbgUnsupportedMethod (Some "unknown-op") (Some []))
       (logged (DbgIncomingEvent
                  (mkRpcMessage (Some "5") (Some "unknown-op") (Some [])))
          initialWorld)).
Proof. reflexivity. Qed.

(** C6. A request that names a method with no registered handler, where the
    name is one that every object inherits from [Object.prototype], is not
    dropped quietly: the inherited value is taken for a strategy and calling
    its [handle] throws, so a [TypeError] leaves the dispatcher (no response
    is published). *)
Theorem inherited_method_name_throws env event msg name w :
  parseEvent env event = Resolved msg ->
  rpc_method msg = Some name ->
  own (handlers w) !! name = None ->
  proto (handlers w) = None ->
  inherited name = true ->
  handleIncomingEvent env event w =
    (Rejected (TypeError "strategy.handle is not a function"),
     logged (DbgIncomingEvent msg) w).
Proof.
  intros Hparse Hmethod Hown Hproto Hinh.
  rewrite (handleIncomingEvent_after_dispatch env event msg w Hparse).
  unfold dispatch, bind, gets, handlers_get. simpl.
  rewrite Hmethod. simpl. rewrite Hown, Hproto, Hinh.
  by case_bool_decide.
Qed.

Lemma inherited_method_name_throws_witness :
  own initialHandlers !! "constructor" = None /\
  handleIncomingEvent env0 constructorRequest initialWorld =
    (Rejected (TypeError "strategy.handle is not a function"),
     logged (DbgIncomingEvent
               (mkRpcMessage (Some "6") (Some "constructor") (Some [])))
       initialWorld).
Proof.
  split; [reflexivity|].
  apply (inherited_method_name_throws env0 constructorRequest
           (mkRpcMessage (Some "6") (Some "constructor") (Some []))
           "constructor" initialWorld);
    reflexivity.
Defined.

(** The built-in strategies of the non-gated methods. *)
Lemma connect_answers_without_gate env :
  answers_without_gate env ConnectStrategy.
Proof. intros pk params w. by exists "ack", w. Qed.

Lemma get_public_key_answers_without_gate env :
  localPubkey env ≠ "" -> answers_without_gate env GetPublicKeyStrategy.
Proof. intros Hpk pk params w. by exists (localPubkey env), w. Qed.

Lemma describe_answers_without_gate env :
  (forall names, stringifyNames env names ≠ "") ->
  answers_without_gate env DescribeStrategy.
Proof.
  intros Hnames pk params w.
  by exists (stringifyNames env (own (handlers w))), w.
Qed.

Lemma truthy_present r : r ≠ "" -> truthy (Some r) = true.
Proof.
  intros Hr. simpl. destruct (String.eqb_spec r ""); [done|reflexivity].
Qed.

(** C7. For every request that names a registered, non-gated method, the
    dispatcher publishes exactly one response, whose id is the request's id,
    which is addressed to the sender and which carries the present result of
    the method's strategy; the Permission Gate is not consulted. *)
Theorem non_gated_request_answered env event msg s w :
  parseEvent env event = Resolved msg ->
  handlers_get env (handlers w) (property_key (rpc_method msg)) = PStrategy s ->
  answers_without_gate env s ->
  exists r w1,
    handle env s (pubkey event) (rpc_params msg) (logged (DbgIncomingEvent msg) w)
      = (Resolved (Some r), w1) /\
    r ≠ "" /\
    is_resolved (handleIncomingEvent env event w).1 = true /\
    published (handleIncomingEvent env event w).2
      = (published w ++ [mkResponse (rpc_id msg) (pubkey event) r])%list /\
    gateQueries (handleIncomingEvent env event w).2 = gateQueries w.
Proof.
  intros Hparse Hget Hs.
  destruct (Hs (pubkey event) (rpc_params msg) (logged (DbgIncomingEvent msg) w))
    as (r & w1 & Hrun & Hr & Hgate & Hpub).
  exists r, w1. split; [done|]. split; [done|].
  rewrite (handleIncomingEvent_after_dispatch env event msg w Hparse).
  rewrite (dispatch_registered env msg (pubkey event) s) by done.
  rewrite Hrun, (truthy_present r Hr). simpl.
  by rewrite Hpub, Hgate.
Qed.

Lemma non_gated_request_answered_witness :
  exists r w1,
    handle env0 GetPublicKeyStrategy "bob" (Some [])
      (logged (DbgIncomingEvent
                 (mkRpcMessage (Some "1") (Some "get_public_key") (Some [])))
         initialWorld)
      = (Resolved (Some r), w1) /\
    r ≠ "" /\
    is_resolved (handleIncomingEvent env0 getPublicKeyRequest initialWorld).1 = true /\
    published (handleIncomingEvent env0 getPublicKeyRequest initialWorld).2
      = ([] ++ [mkResponse (Some "1") "bob" r])%list /\
    gateQueries (handleIncomingEvent env0 getPublicKeyRequest initialWorld).2 = [].
Proof.
  apply (non_gated_request_answered env0 getPublicKeyRequest
           (mkRpcMessage (Some "1") (Some "get_public_key") (Some []))
           GetPublicKeyStrategy initialWorld).
  - reflexivity.
  - reflexivity.
  - apply get_public_key_answers_without_gate. discriminate.
Defined.

(** C9. For every inbound request whose resolved strategy returns the empty
    string, the dispatcher sends no response, and the handling ends exactly
    as it does when the strategy returns an absent result. *)
Theorem empty_result_not_sent env event msg s r w w1 :
  parseEvent env event = Resolved msg ->
  handlers_get env (handlers w) (property_key (rpc_method msg)) = PStrategy s ->
  handle env s (pubkey event) (rpc_params msg) (logged (DbgIncomingEvent msg) w)
    = (Resolved r, w1) ->
  r = Some "" \/ r = None ->
  handleIncomingEvent env event w = (Resolved (), w1).
Proof.
  intros Hparse Hget Hrun Hr.
  rewrite (handleIncomingEvent_after_dispatch env event msg w Hparse).
  rewrite (dispatch_registered env msg (pubkey event) s) by done.
  rewrite Hrun. by destruct Hr as [-> | ->].
Qed.

Lemma empty_result_not_sent_witness :
  handle env0 (CustomStrategy 0) "bob" (Some [])
    (logged (DbgIncomingEvent (mkRpcMessage (Some "7") (Some "empty") (Some [])))
       worldWithEmpty)
    = (Resolved (Some ""),
       logged (DbgIncomingEvent (mkRpcMessage (Some "7") (Some "empty") (Some [])))
         worldWithEmpty) /\
  handleIncomingEvent env0 emptyResultRequest worldWithEmpty
    = (Resolved (),
       logged (DbgIncomingEvent (mkRpcMessage (Some "7") (Some "empty") (Some [])))
         worldWithEmpty).
Proof.
  split; [reflexivity|].
  apply (empty_result_not_sent env0 emptyResultRequest
           (mkRpcMessage (Some "7") (Some "empty") (Some []))
           (CustomStrategy 0) (Some "") worldWithEmpty).
  - reflexivity.
  - reflexivity.
  - reflexivity.
  - by left.
Defined.

(** ** Properties of [encrypt] and [decrypt] *)

Lemma encrypt_frame this recipient signer :
  Nip04.same_but_content this (Nip04.encrypt this recipient signer).2.
Proof.
  unfold Nip04.encrypt, Nip04.same_but_content.
  destruct (Nip04.resolveSigner this signer) as [s|e]; simpl; [|done].
  by destruct (signer_encrypt s recipient (content this)).
Qed.

Lemma decrypt_frame this sender signer :
  Nip04.same_but_content this (Nip04.decrypt this sender signer).2.
Proof.
  unfold Nip04.decrypt, Nip04.same_but_content.
  destruct (Nip04.resolveSigner this signer) as [s|e]; simpl; [|done].
  by destruct (signer_decrypt s sender (content this)).
Qed.

(** C10. Calling [encrypt] or [decrypt] without a signer on an event that
    has no NDK instance throws the error "No signer available" and leaves
    the event, its content included, as it was. In every call the fields
    other than the content stay unchanged, and when a signer is available and
    its operation succeeds the content is replaced by what the signer
    returned. *)
Theorem nip04_signer_and_content this user signer :
  (ndk this = None ->
     Nip04.encrypt this user None = (Rejected (Error "No signer available"), this) /\
     Nip04.decrypt this user None = (Rejected (Error "No signer available"), this)) /\
  (Nip04.same_but_content this (Nip04.encrypt this user signer).2 /\
   Nip04.same_but_content this (Nip04.decrypt this user signer).2) /\
  (forall s c,
     Nip04.resolveSigner this signer = Resolved s ->
     (signer_encrypt s user (content this) = Resolved c ->
        Nip04.encrypt this user signer = (Resolved (), set_content this c)) /\
     (signer_decrypt s user (content this) = Resolved c ->
        Nip04.decrypt this user signer = (Resolved (), set_content this c))).
Proof.
  split; [|split].
  - intros Hndk. unfold Nip04.encrypt, Nip04.decrypt, Nip04.resolveSigner.
    by rewrite Hndk.
  - split; [apply encrypt_frame | apply decrypt_frame].
  - intros s c Hs. unfold Nip04.encrypt, Nip04.decrypt. rewrite Hs.
    split; intros Hc; by rewrite Hc.
Qed.

Lemma nip04_signer_and_content_witness :
  Nip04.encrypt (plainEvent "bob" "8" "secret" []) (mkNDKUser "carol") None
    = (Rejected (Error "No signer available"), plainEvent "bob" "8" "secret" []) /\
  Nip04.encrypt (plainEvent "bob" "8" "secret" []) (mkNDKUser "carol") (Some sampleSigner)
    = (Resolved (), set_content (plainEvent "bob" "8" "secret" []) "enc(carol,secret)").
Proof.
  destruct (nip04_signer_and_content (plainEvent "bob" "8" "secret" [])
              (mkNDKUser "carol") None) as [Hnone _].
  destruct (nip04_signer_and_content (plainEvent "bob" "8" "secret" [])
              (mkNDKUser "carol") (Some sampleSigner)) as (_ & _ & Hsome).
  split.
  - apply Hnone. reflexivity.
  - apply (Hsome sampleSigner "enc(carol,secret)"); reflexivity.
Defined.

(** ** Further properties of [signEvent] *)

Import Frames.

(** X1. Whenever the payload of a sign-event request parses, [signEvent]
    asks the permission callback exactly once, for the remote public key
    and the method name "sign_event", whatever the callback answers and
    whatever the signer does afterwards. *)
Theorem signEvent_queries_gate_once env pk l fields w :
  JSON_parse env (default "undefined" (head l)) = Some fields ->
  gateQueries (signEvent env pk (Some l) w).2
    = (gateQueries w ++ [(pk, "sign_event")])%list.
Proof.
  intros Hjson. unfold_signEvent. simpl. rewrite Hjson. simpl.
  destruct (permitCallback env _ _ _) as [[|]|e]; simpl; [|done|done].
  by destruct (signer_sign _ _).
Qed.

Lemma signEvent_queries_gate_once_witness :
  gateQueries (signEvent env0 "bob" (Some ["hi"]) initialWorld).2
    = ([] ++ [("bob", "sign_event")])%list.
Proof.
  apply (signEvent_queries_gate_once env0 "bob" ["hi"]
           (mkNostrEvent (Some 1700000001%Z) "hi" [] (Some 1%Z) "" "" None)
           initialWorld).
  reflexivity.
Defined.

(** X2. The signer is reached only through an explicit allow: if a run of
    [signEvent] changes the signer's invocation count at all, then the
    parameters were present, the payload parsed, the permission callback
    resolved with true for exactly that parsed event, and the signer was
    invoked once. *)
Theorem signer_reached_only_after_allow env pk params w :
  signCalls (signEvent env pk params w).2 ≠ signCalls w ->
  exists l fields,
    params = Some l /\
    JSON_parse env (default "undefined" (head l)) = Some fields /\
    permitCallback env pk "sign_event"
      (new_NDKEvent (Some (backend_ndk env)) fields) = Resolved true /\
    signCalls (signEvent env pk params w).2 = S (signCalls w).
Proof.
  unfold_signEvent.
  destruct params as [l|]; simpl; [|done].
  destruct (JSON_parse env _) as [fields|] eqn:Hjson; simpl; [|done].
  destruct (permitCallback env _ _ _) as [[|]|e] eqn:Hgate; simpl; [|done|done].
  intros _. exists l, fields.
  split; [done|]. split; [done|]. split; [done|].
  by destruct (signer_sign _ _).
Qed.

Lemma signer_reached_only_after_allow_witness :
  exists l fields,
    Some ["hi"] = Some l /\
    JSON_parse env0 (default "undefined" (head l)) = Some fields /\
    permitCallback env0 "alice" "sign_event"
      (new_NDKEvent (Some (backend_ndk env0)) fields) = Resolved true /\
    signCalls (signEvent env0 "alice" (Some ["hi"]) initialWorld).2 = 1.
Proof.
  apply (signer_reached_only_after_allow env0 "alice" (Some ["hi"]) initialWorld).
  vm_compute. discriminate.
Defined.



(** X4. An allowed sign-event request is answered end to end: the
    dispatcher publishes exactly one response, addressed to the sender,
    with the request's id and the serialized signed event as result, after
    one gate query and one call of the signer. *)
Theorem allowed_sign_event_is_answered env event msg l fields sg w :
  parseEvent env event = Resolved msg ->
  rpc_method msg = Some "sign_event" ->
  own (handlers w) !! "sign_event" = Some SignEventStrategy ->
  rpc_params msg = Some l ->
  JSON_parse env (default "undefined" (head l)) = Some fields ->
  permitCallback env (pubkey event) "sign_event"
    (new_NDKEvent (Some (backend_ndk env)) fields) = Resolved true ->
  signer_sign (backend_signer env) fields = Resolved sg ->
  stringifyEvent env (set_sig (new_NDKEvent (Some (backend_ndk env)) fields) sg) ≠ "" ->
  (handleIncomingEvent env event w).1 = Resolved () /\
  published (handleIncomingEvent env event w).2
    = (published w ++
       [mkResponse (rpc_id msg) (pubkey event)
          (stringifyEvent env
             (set_sig (new_NDKEvent (Some (backend_ndk env)) fields) sg))])%list /\
  gateQueries (handleIncomingEvent env event w).2
    = (gateQueries w ++ [(pubkey event, "sign_event")])%list /\
  signCalls (handleIncomingEvent env event w).2 = S (signCalls w).
Proof.
  intros Hparse Hmethod Hown Hparams Hjson Hgate Hsign Hjsonout.
  rewrite (handleIncomingEvent_after_dispatch env event msg w Hparse).
  rewrite (dispatch_registered env msg (pubkey event) SignEventStrategy);
    [|rewrite Hmethod; by apply handlers_get_own].
  simpl handle. rewrite Hparams.
  unfold sign_event_handle. unfold_signEvent.
  simpl. rewrite Hjson. simpl. rewrite Hgate. simpl.
  rewrite rawEvent_new_NDKEvent, Hsign. simpl.
  destruct (String.eqb_spec
              (stringifyEvent env
                 (set_sig (new_NDKEvent (Some (backend_ndk env)) fields) sg)) "")
    as [Heq|Hne]; [done|].
  done.
Qed.

Lemma allowed_sign_event_is_answered_witness :
  (handleIncomingEvent env0 (signRequest "alice") initialWorld).1 = Resolved () /\
  published (handleIncomingEvent env0 (signRequest "alice") initialWorld).2
    = ([] ++ [mkResponse (Some "2") "alice" "hi|sig:hi"])%list /\
  gateQueries (handleIncomingEvent env0 (signRequest "alice") initialWorld).2
    = ([] ++ [("alice", "sign_event")])%list /\
  signCalls (handleIncomingEvent env0 (signRequest "alice") initialWorld).2 = 1.
Proof.
  apply (allowed_sign_event_is_answered env0 (signRequest "alice")
           (mkRpcMessage (Some "2") (Some "sign_event") (Some ["hi"])) ["hi"]
           (mkNostrEvent (Some 1700000001%Z) "hi" [] (Some 1%Z) "" "" None)
           "sig:hi" initialWorld);
    try reflexivity.
  discriminate.
Defined.



(** ** Further properties of the dispatcher *)

(** X6. A request without a method is looked up under the key "undefined":
    on a handler table that has no such entry (and the original prototype)
    it is logged as unsupported and dropped, with nothing published. *)
Theorem request_without_method_dropped env event msg w :
  parseEvent env event = Resolved msg ->
  rpc_method msg = None ->
  own (handlers w) !! "undefined" = None ->
  proto (handlers w) = None ->
  handleIncomingEvent env event w =
    (Resolved (),
     logged (DbgUnsupportedMethod None (rpc_params msg))
       (logged (DbgIncomingEvent msg) w)).
Proof.
  intros Hparse Hmethod Hown Hproto.
  rewrite (handleIncomingEvent_after_dispatch env event msg w Hparse).
  unfold dispatch, bind, gets, handlers_get. simpl.
  rewrite Hmethod. simpl. by rewrite Hown, Hproto.
Qed.

Lemma request_without_method_dropped_witness :
  handleIncomingEvent envBare (plainEvent "bob" "10" "" []) initialWorld =
    (Resolved (),
     logged (DbgUnsupportedMethod None None)
       (logged (DbgIncomingEvent (mkRpcMessage (Some "10") None None))
          initialWorld)).
Proof.
  apply (request_without_method_dropped envBare (plainEvent "bob" "10" "" [])
           (mkRpcMessage (Some "10") None None) initialWorld);
    reflexivity.
Defined.

(** X7. Whatever strategy runs, the dispatcher itself sends at most one
    response per inbound message: the published responses are those the
    strategy left, followed by nothing or by one response that carries the
    request's id, the sender as recipient and the strategy's non-empty
    result. *)
Theorem dispatcher_sends_at_most_one env event msg w :
  parseEvent env event = Resolved msg ->
  published (handleIncomingEvent env event w).2
    = published (dispatch env msg (pubkey event) (logged (DbgIncomingEvent msg) w)).2
  \/ exists r,
       (dispatch env msg (pubkey event) (logged (DbgIncomingEvent msg) w)).1
         = Resolved (Some r) /\
       r ≠ "" /\
       published (handleIncomingEvent env event w).2
         = (published (dispatch env msg (pubkey event)
                         (logged (DbgIncomingEvent msg) w)).2
            ++ [mkResponse (rpc_id msg) (pubkey event) r])%list.
Proof.
  intros Hparse.
  rewrite (handleIncomingEvent_after_dispatch env event msg w Hparse).
  destruct (dispatch env msg (pubkey event) _) as [[[r|]|e] w1]; simpl;
    [|by left|by left].
  destruct (String.eqb_spec r "") as [->|Hr]; simpl; [by left|].
  right. by exists r.
Qed.

Lemma dispatcher_sends_at_most_one_witness :
  published (handleIncomingEvent env0 getPublicKeyRequest initialWorld).2 = []
  \/ exists r,
       (dispatch env0 (mkRpcMessage (Some "1") (Some "get_public_key") (Some []))
          "bob"
          (logged (DbgIncomingEvent
                     (mkRpcMessage (Some "1") (Some "get_public_key") (Some [])))
             initialWorld)).1 = Resolved (Some r) /\
       r ≠ "" /\
       published (handleIncomingEvent env0 getPublicKeyRequest initialWorld).2
         = ([] ++ [mkResponse (Some "1") "bob" r])%list.
Proof.
  apply (dispatcher_sends_at_most_one env0 getPublicKeyRequest
           (mkRpcMessage (Some "1") (Some "get_public_key") (Some []))
           initialWorld).
  reflexivity.
Defined.

(** X8. A strategy whose [handle] rejects makes [handleIncomingEvent] reject
    with the same error, in the state the strategy left: the dispatcher
    neither catches the error nor logs or sends anything after it. *)
Theorem handler_rejection_propagates env event msg s err w w1 :
  parseEvent env event = Resolved msg ->
  handlers_get env (handlers w) (property_key (rpc_method msg)) = PStrategy s ->
  handle env s (pubkey event) (rpc_params msg) (logged (DbgIncomingEvent msg) w)
    = (Rejected err, w1) ->
  handleIncomingEvent env event w = (Rejected err, w1).
Proof.
  intros Hparse Hget Hrun.
  rewrite (handleIncomingEvent_after_dispatch env event msg w Hparse).
  rewrite (dispatch_registered env msg (pubkey event) s) by done.
  by rewrite Hrun.
Qed.

Lemma handler_rejection_propagates_witness :
  handleIncomingEvent env0 (signRequest "mallory") initialWorld
  = (Rejected (Reason "prompt failed"),
     queried "mallory" "sign_event"
       (logged (DbgEventToSign
                  (mkNostrEvent (Some 1700000001%Z) "hi" [] (Some 1%Z) "" "" None))
          (logged (DbgSignEventRequest "mallory")
             (logged (DbgIncomingEvent
                        (mkRpcMessage (Some "2") (Some "sign_event") (Some ["hi"])))
                initialWorld)))).
Proof.
  apply (handler_rejection_propagates env0 (signRequest "mallory")
           (mkRpcMessage (Some "2") (Some "sign_event") (Some ["hi"]))
           SignEventStrategy (Reason "prompt failed") initialWorld);
    reflexivity.
Defined.

(** ** Further properties of the handler table *)

(** X9. Registering a strategy never shadows another registered name, and
    under any name other than [__proto__] it leaves the resolution of
    every other name, registered or not, as it was. *)
Theorem register_keeps_other_names env h key key' s :
  key' ≠ key ->
  (forall s', own h !! key' = Some s' ->
     handlers_get env (handlers_set h key s) key' = PStrategy s') /\
  (key ≠ "__proto__" ->
     handlers_get env (handlers_set h key s) key' = handlers_get env h key').
Proof.
  intros Hne. split.
  - intros s' Hown. apply handlers_get_own.
    rewrite register_other_name by done. done.
  - intros Hkey. unfold handlers_get, handlers_set.
    rewrite bool_decide_eq_false_2 by done. simpl.
    by rewrite lookup_insert_ne.
Qed.

Lemma register_keeps_other_names_witness :
  handlers_get env0 (handlers_set initialHandlers "ping" (CustomStrategy 2))
    "sign_event" = PStrategy SignEventStrategy /\
  handlers_get env0 (handlers_set initialHandlers "ping" (CustomStrategy 2))
    "pong" = handlers_get env0 initialHandlers "pong".
Proof.
  destruct (register_keeps_other_names env0 initialHandlers "ping" "sign_event"
              (CustomStrategy 2)) as [Hreg _]; [discriminate|].
  destruct (register_keeps_other_names env0 initialHandlers "ping" "pong"
              (CustomStrategy 2)) as [_ Hall]; [discriminate|].
  split.
  - apply Hreg. reflexivity.
  - apply Hall. discriminate.
Defined.

(** X10. After [setStrategy(method, strategy)] a request that names the
    method is handed to that strategy, also when the name was one of the
    built-in methods: its [handle] decides the response. *)
Theorem registered_strategy_handles_request env msg pk m s w :
  rpc_method msg = Some m ->
  ordinary (handlers w) ->
  dispatch env msg pk (setStrategy m s w).2
    = handle env s pk (rpc_params msg) (setStrategy m s w).2.
Proof.
  intros Hmethod Hord.
  apply dispatch_registered. rewrite Hmethod. simpl.
  by apply resolve_after_register.
Qed.

Lemma registered_strategy_handles_request_witness :
  dispatch env0 (mkRpcMessage (Some "2") (Some "sign_event") (Some ["hi"])) "bob"
    (setStrategy "sign_event" (CustomStrategy 2) initialWorld).2
  = (Resolved (Some "custom"),
     (setStrategy "sign_event" (CustomStrategy 2) initialWorld).2).
Proof.
  rewrite (registered_strategy_handles_request env0
             (mkRpcMessage (Some "2") (Some "sign_event") (Some ["hi"])) "bob"
             "sign_event" (CustomStrategy 2) initialWorld);
    reflexivity.
Defined.

(** ** What the handling of one message can change *)

Lemma extend_nothing w : extend [] [] [] 0 w = w.
Proof. destruct w. unfold extend. simpl. by rewrite !app_nil_r. Qed.

Ltac close_field :=
  first [ reflexivity
        | rewrite <- !app_assoc; reflexivity
        | symmetry; apply app_nil_r
        | exact (eq_refl : _ = 0 + _)
        | exact (eq_refl : _ = 1 + _) ].

Lemma run_extends {A : Type} (o : Outcome A) L D G n w h' l' p' g' c' :
  h' = handlers w ->
  l' = (debugLog w ++ L)%list ->
  p' = (published w ++ D)%list ->
  g' = (gateQueries w ++ G)%list ->
  c' = n + signCalls w ->
  (o, mkWorld h' l' p' g' c') = (o, extend L D G n w).
Proof. by intros -> -> -> -> ->. Qed.

Ltac close_run :=
  unfold logged, responded, queried, signedOnce; simpl;
  apply run_extends; close_field.

Ltac finish_frame :=
  let Hrun := fresh "Hrun" in
  intros Hrun; do 5 eexists;
  split; [intros w Hw; rewrite (Hrun w Hw); close_run | simpl; lia].

(** Unless the message is routed to one of the application's own
    strategies, its handling is the same in every world that has the given
    handler table: it keeps the table and appends to the logs. *)
Lemma builtin_handling_appends env event h :
  (forall msg, parseEvent env event = Resolved msg ->
     not_custom (handlers_get env h (property_key (rpc_method msg)))) ->
  exists o L D G n,
    (forall w, handlers w = h ->
       handleIncomingEvent env event w = (o, extend L D G n w)) /\
    length D <= 1 /\ length G <= 1 /\ n <= 1.
Proof.
  intros Hnc.
  destruct (parseEvent env event) as [msg|e] eqn:Hparse.
  2:{ exists (Rejected e), [], [], [], 0. split; [|simpl; lia].
      intros w _. unfold handleIncomingEvent, bind, await.
      by rewrite Hparse, extend_nothing. }
  specialize (Hnc msg eq_refl).
  assert (forall w, handlers w = h ->
            handleIncomingEvent env event w =
              match
                match handlers_get env h (property_key (rpc_method msg)) with
                | PStrategy s =>
                    handle env s (pubkey event) (rpc_params msg)
                      (logged (DbgIncomingEvent msg) w)
                | PForeign _ =>
                    (Rejected (TypeError "strategy.handle is not a function"),
                     logged (DbgIncomingEvent msg) w)
                | PUndefined =>
                    (Resolved None,
                     logged (DbgUnsupportedMethod (rpc_method msg) (rpc_params msg))
                       (logged (DbgIncomingEvent msg) w))
                end
              with
              | (Resolved response, w1) =>
                  if truthy response
                  then (Resolved (),
                        responded (mkResponse (rpc_id msg) (pubkey event)
                                     (default "" response))
                          (logged (DbgSendingResponse (pubkey event)
                                     (default "" response)) w1))
                  else (Resolved (), w1)
              | (Rejected e, w1) => (Rejected e, w1)
              end) as Hrun.
  { intros w Hw.
    rewrite (handleIncomingEvent_after_dispatch env event msg w Hparse).
    unfold dispatch, bind, gets.
    change (handlers (logged (DbgIncomingEvent msg) w)) with (handlers w).
    rewrite Hw. by destruct (handlers_get env h _). }
  revert Hrun.
  destruct (handlers_get env h (property_key (rpc_method msg))) as [|s|what];
    [finish_frame| |finish_frame].
  destruct s as [| | | |k]; [finish_frame| | | |by destruct (Hnc k)].
  - simpl handle. unfold sign_event_handle.
    unfold signEvent, firstParam, parseEventString, pubkeyAllowed, event_sign,
      bind, await, throw, ret.
    destruct (rpc_params msg) as [l|]; simpl; [|finish_frame].
    destruct (JSON_parse env _) as [fields|]; simpl; [|finish_frame].
    destruct (permitCallback env _ _ _) as [[|]|e]; simpl;
      [|finish_frame|finish_frame].
    destruct (signer_sign _ _) as [sg|e]; simpl; [|finish_frame].
    destruct (negb (String.eqb (stringifyEvent env _) "")); finish_frame.
  - simpl. destruct (negb (String.eqb (localPubkey env) "")); finish_frame.
  - intros Hrun.
    assert (forall w, handlers w = h ->
              handle env DescribeStrategy (pubkey event) (rpc_params msg)
                (logged (DbgIncomingEvent msg) w)
              = (Resolved (Some (stringifyNames env (own h))),
                 logged (DbgIncomingEvent msg) w)) as Hdescribe.
    { intros w Hw. simpl. unfold describe_handle, bind, gets, ret. simpl.
      by rewrite Hw. }
    destruct (negb (String.eqb (stringifyNames env (own h)) "")) eqn:Hnames.
    + do 5 eexists.
      split; [intros w Hw; rewrite (Hrun w Hw), (Hdescribe w Hw); simpl;
              rewrite Hnames; close_run|simpl; lia].
    + do 5 eexists.
      split; [intros w Hw; rewrite (Hrun w Hw), (Hdescribe w Hw); simpl;
              rewrite Hnames; close_run|simpl; lia].
Qed.

(** X11. Unless the message is routed to one of the application's own
    strategies, handling it keeps the handler table, only appends to the
    debug log, publishes at most one response, asks the gate at most once
    and invokes the signer at most once. *)
Theorem builtin_handling_bounded env event w :
  (forall msg, parseEvent env event = Resolved msg ->
     not_custom (handlers_get env (handlers w) (property_key (rpc_method msg)))) ->
  handlers (handleIncomingEvent env event w).2 = handlers w /\
  (exists L, debugLog (handleIncomingEvent env event w).2 = (debugLog w ++ L)%list) /\
  (exists D, published (handleIncomingEvent env event w).2 = (published w ++ D)%list /\
             length D <= 1) /\
  (exists G, gateQueries (handleIncomingEvent env event w).2 = (gateQueries w ++ G)%list /\
             length G <= 1) /\
  signCalls w <= signCalls (handleIncomingEvent env event w).2 <= S (signCalls w).
Proof.
  intros Hnc.
  destruct (builtin_handling_appends env event (handlers w) Hnc)
    as (o & L & D & G & n & Hrun & HD & HG & Hn).
  rewrite (Hrun w eq_refl). simpl.
  split; [done|]. split; [by exists L|]. split; [by exists D|].
  split; [by exists G|]. lia.
Qed.

Lemma builtin_handling_bounded_witness :
  handlers (handleIncomingEvent env0 (signRequest "alice") initialWorld).2
    = initialHandlers /\
  signCalls (handleIncomingEvent env0 (signRequest "alice") initialWorld).2 <= 1.
Proof.
  destruct (builtin_handling_bounded env0 (signRequest "alice") initialWorld)
    as (Hh & _ & _ & _ & _ & Hs).
  - intros msg Hmsg. injection Hmsg as <-. intros n. vm_compute. discriminate.
  - split; [exact Hh | exact Hs].
Defined.

(** X12. The dispatcher keeps no record of the requests it has seen. Let
    [env1] be the collaborators as they answer while a message is handled
    for the first time and [env2] as they answer when the same message is
    delivered again (the permission callback and the signer may answer
    differently). Unless the message is routed to one of the application's
    own strategies, the second handling ends with the outcome, and appends
    the log entries, responses, gate queries and signer calls, that a first
    handling with the answers of [env2] would have produced. *)
Theorem duplicate_delivery_handled_afresh env1 env2 event w :
  (forall msg, parseEvent env1 event = Resolved msg ->
     not_custom (handlers_get env1 (handlers w) (property_key (rpc_method msg)))) ->
  (forall msg, parseEvent env2 event = Resolved msg ->
     not_custom (handlers_get env2 (handlers w) (property_key (rpc_method msg)))) ->
  exists o L D G n,
    handleIncomingEvent env2 event w = (o, extend L D G n w) /\
    handleIncomingEvent env2 event (handleIncomingEvent env1 event w).2
      = (o, extend L D G n (handleIncomingEvent env1 event w).2).
Proof.
  intros Hnc1 Hnc2.
  destruct (builtin_handling_appends env1 event (handlers w) Hnc1)
    as (o1 & L1 & D1 & G1 & n1 & Hrun1 & _).
  destruct (builtin_handling_appends env2 event (handlers w) Hnc2)
    as (o & L & D & G & n & Hrun2 & _).
  exists o, L, D, G, n. split; [by apply Hrun2|].
  rewrite (Hrun1 w eq_refl). simpl.
  by apply Hrun2.
Qed.

Lemma duplicate_delivery_handled_afresh_witness :
  exists o L D G n,
    handleIncomingEvent (withPermit env0 denyAll) (signRequest "alice") initialWorld
      = (o, extend L D G n initialWorld) /\
    handleIncomingEvent (withPermit env0 denyAll) (signRequest "alice")
      (handleIncomingEvent env0 (signRequest "alice") initialWorld).2
      = (o, extend L D G n
              (handleIncomingEvent env0 (signRequest "alice") initialWorld).2).
Proof.
  apply (duplicate_delivery_handled_afresh env0 (withPermit env0 denyAll)
           (signRequest "alice") initialWorld).
  - intros msg Hmsg. injection Hmsg as <-. intros n. vm_compute. discriminate.
  - intros msg Hmsg. injection Hmsg as <-. intros n. vm_compute. discriminate.
Defined.

(** ** Further properties of [encrypt] and [decrypt] *)

(** X13. [encrypt] and [decrypt] are all-or-nothing: whenever the call
    rejects (no signer, [assertSigner] failing, the signer's operation
    failing), the event is exactly as it was. *)
Theorem nip04_rejection_leaves_event this user signer err :
  ((Nip04.encrypt this user signer).1 = Rejected err ->
     (Nip04.encrypt this user signer).2 = this) /\
  ((Nip04.decrypt this user signer).1 = Rejected err ->
     (Nip04.decrypt this user signer).2 = this).
Proof.
  unfold Nip04.encrypt, Nip04.decrypt.
  destruct (Nip04.resolveSigner this signer) as [s|e]; simpl; [|done].
  split.
  - by destruct (signer_encrypt s user (content this)).
  - by destruct (signer_decrypt s user (content this)).
Qed.

Lemma nip04_rejection_leaves_event_witness :
  (Nip04.decrypt (plainEvent "bob" "8" "plain" []) (mkNDKUser "carol")
     (Some markingSigner)).2 = plainEvent "bob" "8" "plain" [].
Proof.
  destruct (nip04_rejection_leaves_event (plainEvent "bob" "8" "plain" [])
              (mkNDKUser "carol") (Some markingSigner) (Error "bad ciphertext"))
    as [_ Hdec].
  apply Hdec. reflexivity.
Defined.

(** X14. Leaving the signer argument out is the same as passing the signer
    of the event's NDK instance, once [assertSigner] has resolved. *)
Theorem nip04_default_signer_is_ndk_signer this user n s :
  ndk this = Some n ->
  ndk_assertSigner n = Resolved () ->
  ndk_signer n = Some s ->
  Nip04.encrypt this user None = Nip04.encrypt this user (Some s) /\
  Nip04.decrypt this user None = Nip04.decrypt this user (Some s).
Proof.
  intros Hndk Hassert Hsigner.
  unfold Nip04.encrypt, Nip04.decrypt, Nip04.resolveSigner.
  by rewrite Hndk, Hassert, Hsigner.
Qed.

Lemma nip04_default_signer_is_ndk_signer_witness :
  Nip04.encrypt (new_NDKEvent (Some sampleNDK)
                   (mkNostrEvent None "secret" [] (Some 4%Z) "bob" "" None))
    (mkNDKUser "carol") None
  = Nip04.encrypt (new_NDKEvent (Some sampleNDK)
                     (mkNostrEvent None "secret" [] (Some 4%Z) "bob" "" None))
      (mkNDKUser "carol") (Some sampleSigner).
Proof.
  apply (nip04_default_signer_is_ndk_signer
           (new_NDKEvent (Some sampleNDK)
              (mkNostrEvent None "secret" [] (Some 4%Z) "bob" "" None))
           (mkNDKUser "carol") sampleNDK sampleSigner);
    reflexivity.
Defined.

Lemma set_content_back this c : set_content (set_content this c) (content this) = this.
Proof. by destruct this. Qed.

(** X15. Round trip: when the receiving signer's [decrypt] turns the
    ciphertext that [encrypt] stored back into the original content,
    [encrypt] followed by [decrypt] restores the event exactly. *)
Theorem encrypt_then_decrypt_restores this recipient sender s1 s2 c :
  signer_encrypt s1 recipient (content this) = Resolved c ->
  signer_decrypt s2 sender c = Resolved (content this) ->
  Nip04.decrypt (Nip04.encrypt this recipient (Some s1)).2 sender (Some s2)
    = (Resolved (), this).
Proof.
  intros Henc Hdec. unfold Nip04.encrypt, Nip04.decrypt. simpl.
  rewrite Henc. simpl. rewrite Hdec.
  by rewrite set_content_back.
Qed.

Lemma encrypt_then_decrypt_restores_witness :
  Nip04.decrypt
    (Nip04.encrypt (plainEvent "bob" "8" "secret" []) (mkNDKUser "carol")
       (Some markingSigner)).2
    (mkNDKUser "bob") (Some markingSigner)
  = (Resolved (), plainEvent "bob" "8" "secret" []).
Proof.
  apply (encrypt_then_decrypt_restores (plainEvent "bob" "8" "secret" [])
           (mkNDKUser "carol") (mkNDKUser "bob") markingSigner markingSigner
           "#secret");
    reflexivity.
Defined.

(** ** Properties of [start] *)

Import Lifecycle.

Lemma startAll_from calls b :
  subscriptions (startAll calls b)
    = (subscriptions b ++
       (backendSubscription <$> resolvedUsers calls))%list /\
  localUser (startAll calls b)
    = match last (resolvedUsers calls) with
      | Some u => Some u
      | None => localUser b
      end.
Proof.
  revert b. induction calls as [|o calls IH]; intros b.
  - simpl. by rewrite app_nil_r.
  - unfold startAll in *. simpl foldl.
    destruct (IH (start o b).2) as [Hsubs Huser].
    rewrite Hsubs, Huser.
    destruct o as [u|e]; simpl.
    + split; [by rewrite <- app_assoc|].
      rewrite last_cons. by destruct (last _).
    + done.
Qed.

(** X16. However often [start] is called, the backend holds one
    subscription per call in which [signer.user()] resolved and none for a
    call in which it failed; each is for kind 24133, tagged with that
    user's public key, stays open after the stored events, and has
    [handleIncomingEvent] attached; [localUser] is the user of the last
    call that resolved. *)
Theorem start_subscriptions calls :
  subscriptions (startAll calls notStarted)
    = backendSubscription <$> resolvedUsers calls /\
  localUser (startAll calls notStarted)
    = last (resolvedUsers calls).
Proof.
  destruct (startAll_from calls notStarted) as [Hsubs Huser].
  split; [exact Hsubs|].
  rewrite Huser. by destruct (last _).
Qed.
